(** * The SPSA demonstration module

    [demonstrations/spsa.py] consists of one raw, triple-quoted string
    literal (its docstring, lines 1-103) followed by blank lines and a
    block of comments (lines 104-113).  It defines nothing and computes
    nothing: the schemes its text describes are not implemented here.

    The file below models what running such a module does - the
    docstring is bound to [__doc__] in the module's namespace and
    nothing else happens - and, around it, what the import system does
    when it loads the module from its source file. *)

From Stdlib Require Import String Ascii List Arith ZArith Lia.
From stdpp Require Import base option list strings gmap.

Local Open Scope string_scope.

(* ===================================================================== *)
(** * Running a Python module                                             *)
(* ===================================================================== *)

Module Py.

(** ** String literals *)

(** The prefix of a string literal: none, or [r] (raw). *)
Inductive str_prefix := NoPrefix | RawPrefix.

(** A string literal of the source: its prefix and the characters
    written between the quotes. *)
Record literal := Literal { lit_prefix : str_prefix; lit_text : string }.

Definition backslash : ascii := ascii_of_nat 92.
Definition newline : ascii := ascii_of_nat 10.

Definition is_octal (c : ascii) : bool :=
  (48 <=? nat_of_ascii c)%nat && (nat_of_ascii c <=? 55)%nat.

Definition octal_val (c : ascii) : nat := nat_of_ascii c - 48.

Definition hex_val (c : ascii) : option nat :=
  let n := nat_of_ascii c in
  if (48 <=? n)%nat && (n <=? 57)%nat then Some (n - 48)
  else if (65 <=? n)%nat && (n <=? 70)%nat then Some (n - 55)
  else if (97 <=? n)%nat && (n <=? 102)%nat then Some (n - 87)
  else None.

(** The one-character escapes of a non-raw literal. *)
Definition simple_escape (c : ascii) : option ascii :=
  match nat_of_ascii c with
  | 92 => Some backslash                (* \\ *)
  | 39 => Some (ascii_of_nat 39)        (* \' *)
  | 34 => Some (ascii_of_nat 34)        (* \dquote *)
  | 97 => Some (ascii_of_nat 7)         (* \a *)
  | 98 => Some (ascii_of_nat 8)         (* \b *)
  | 102 => Some (ascii_of_nat 12)       (* \f *)
  | 110 => Some (ascii_of_nat 10)       (* \n *)
  | 114 => Some (ascii_of_nat 13)       (* \r *)
  | 116 => Some (ascii_of_nat 9)        (* \t *)
  | 118 => Some (ascii_of_nat 11)       (* \v *)
  | _ => None
  end.

(** Escape processing of a non-raw literal.  [None] stands for a
    literal the compiler rejects, or one whose value does not fit the
    8-bit characters used here (octal escapes above 377 and the
    \N, \u and \U escapes). *)
Fixpoint unescape (s : string) : option string :=
  match s with
  | EmptyString => Some EmptyString
  | String c rest =>
      if Ascii.eqb c backslash then
        match rest with
        | EmptyString => None
        | String d rest' =>
            if Ascii.eqb d newline then unescape rest'
            else match simple_escape d with
            | Some e => String e <$> unescape rest'
            | None =>
                if is_octal d then
                  match rest' with
                  | String d2 rest2 =>
                      if is_octal d2 then
                        match rest2 with
                        | String d3 rest3 =>
                            if is_octal d3 then
                              let n := (64 * octal_val d + 8 * octal_val d2
                                        + octal_val d3)%nat in
                              if (n <=? 255)%nat
                              then String (ascii_of_nat n) <$> unescape rest3
                              else None
                            else String (ascii_of_nat (8 * octal_val d + octal_val d2))
                                   <$> unescape rest2
                        | EmptyString =>
                            Some (String (ascii_of_nat (8 * octal_val d + octal_val d2))
                                         EmptyString)
                        end
                      else String (ascii_of_nat (octal_val d)) <$> unescape rest'
                  | EmptyString => Some (String (ascii_of_nat (octal_val d)) EmptyString)
                  end
                else if Ascii.eqb d "x" then
                  match rest' with
                  | String h1 (String h2 rest3) =>
                      match hex_val h1, hex_val h2 with
                      | Some a, Some b =>
                          String (ascii_of_nat (16 * a + b)) <$> unescape rest3
                      | _, _ => None
                      end
                  | _ => None
                  end
                else if Ascii.eqb d "N" || Ascii.eqb d "u" || Ascii.eqb d "U" then None
                else (* unrecognised escape: the backslash stays *)
                  (fun r => String c (String d r)) <$> unescape rest'
            end
        end
      else String c <$> unescape rest
  end.

(** The value of a string literal.  A raw literal denotes its text,
    character for character. *)
Definition literal_value (l : literal) : option string :=
  match lit_prefix l with
  | RawPrefix => Some (lit_text l)
  | NoPrefix => unescape (lit_text l)
  end.

(** Python's [needle in s] on strings. *)
Fixpoint starts_with (needle s : string) : bool :=
  match needle, s with
  | EmptyString, _ => true
  | String a needle', String b s' => Ascii.eqb a b && starts_with needle' s'
  | String _ _, EmptyString => false
  end.

Fixpoint contains (needle s : string) : bool :=
  starts_with needle s ||
  match s with
  | EmptyString => false
  | String _ s' => contains needle s'
  end.

Fixpoint count_char (c : ascii) (s : string) : nat :=
  match s with
  | EmptyString => 0
  | String d s' => (if Ascii.eqb c d then 1 else 0) + count_char c s'
  end.

(** ** Values, namespaces and the world outside the module *)

Inductive value :=
| VNone
| VStr (s : string)
| VFunction (name : string)
| VClass (name : string).

Inductive exn :=
| SyntaxError
| KeyError (key : string)
| ModuleNotFoundError (name : string).

(** Interactions with the outside: reads are recorded as well as
    writes, since a read leaves the state as it was. *)
Inductive event :=
| EvGetenv (key : string)
| EvRead (path : string)
| EvWrite (path : string)
| EvSend (host : string).

Record world := World {
  modules : gmap string (gmap string value);   (* sys.modules *)
  environ : gmap string string;                (* os.environ *)
  files : gmap string string;                  (* the file system *)
  trace : list event
}.

Definition set_modules (f : gmap string (gmap string value) → gmap string (gmap string value))
    (w : world) : world :=
  World (f (modules w)) (environ w) (files w) (trace w).

Definition set_files (f : gmap string string → gmap string string) (w : world) : world :=
  World (modules w) (environ w) (f (files w)) (trace w).

Definition log (e : event) (w : world) : world :=
  World (modules w) (environ w) (files w) (trace w ++ [e]).

(** The frame in which a module body runs: the namespace of the module
    being loaded, and the world. *)
Record frame := Frame { globals : gmap string value; outside : world }.

Inductive result (A : Type) :=
| Ok (a : A)
| Raise (e : exn).
Arguments Ok {A} a.
Arguments Raise {A} e.

(** Module-level code: it may raise, and it threads the frame. *)
Definition M (A : Type) : Type := frame → result A * frame.

#[export] Instance M_ret : MRet M := λ A a fr, (Ok a, fr).

#[export] Instance M_bind : MBind M := λ A B f m fr,
  match m fr with
  | (Ok a, fr') => f a fr'
  | (Raise e, fr') => (Raise e, fr')
  end.

Definition raise {A} (e : exn) : M A := λ fr, (Raise e, fr).

(** [name = v] at module level. *)
Definition store_name (name : string) (v : value) : M unit :=
  λ fr, (Ok (), Frame (<[name := v]> (globals fr)) (outside fr)).

(** [os.environ[key]]. *)
Definition getenv (key : string) : M string :=
  λ fr, let fr' := Frame (globals fr) (log (EvGetenv key) (outside fr)) in
        match environ (outside fr) !! key with
        | Some v => (Ok v, fr')
        | None => (Raise (KeyError key), fr')
        end.

(** Writing [data] to the file at [path], which is created or
    truncated. *)
Definition write_file (path data : string) : M unit :=
  λ fr, (Ok (), Frame (globals fr)
                      (log (EvWrite path) (set_files (insert path data) (outside fr)))).

(** A string literal in expression position; a literal the compiler
    rejects makes the load fail with [SyntaxError]. *)
Definition str_const (l : literal) : M value :=
  match literal_value l with
  | Some s => mret (VStr s)
  | None => raise SyntaxError
  end.

(** A module whose first statement is a string literal: the compiler
    turns that statement into the assignment of [__doc__]. *)
Definition docstring (l : literal) : M unit :=
  v ← str_const l; store_name "__doc__" v.

(** The namespace of a module object created by name alone, before any
    body has run in it. *)
Definition new_module (name : string) : gmap string value :=
  <["__name__" := VStr name]>
    (<["__doc__" := VNone]>
      (<["__package__" := VNone]>
        (<["__loader__" := VNone]>
          (<["__spec__" := VNone]> ∅)))).

(** Running a body in a bare module object: a module object is created
    by name alone, the body runs in its namespace, and the object is
    entered in [sys.modules]; when the body raises, the exception
    propagates and no module is left behind.  This is the execution of
    the body and no more: finding the source, reading it, caching its
    byte code and setting the attributes that tell where the module came
    from are the work of the import system ([import_module] below). *)
Definition load_module (name : string) (body : M unit) (w : world) : result unit * world :=
  match body (Frame (new_module name) w) with
  | (Ok _, fr) => (Ok (), set_modules (insert name (globals fr)) (outside fr))
  | (Raise e, fr) => (Raise e, outside fr)
  end.

(** The [__doc__] of the module called [name] after [body] was loaded
    in the world [w]. *)
Definition loaded_doc (name : string) (body : M unit) (w : world) : option value :=
  modules (load_module name body w).2 !! name ≫= (λ ns, ns !! "__doc__").

(** The functions and classes a namespace defines. *)
Definition is_definition (v : value) : bool :=
  match v with
  | VFunction _ | VClass _ => true
  | VNone | VStr _ => false
  end.

Definition definitions (ns : gmap string value) : gmap string value :=
  filter (λ kv, is_definition kv.2 = true) ns.

(** For comparison, the body of a module that consists of one
    assignment, of the environment variable HOME to the name [home]. *)
Definition env_reader : M unit :=
  home ← getenv "HOME"; store_name "home" (VStr home).

(** ** Optimisation levels *)

(** A module that opens with the string literal [l], compiled at
    optimisation level [lvl] ([sys.flags.optimize], set by [-O], [-OO]
    or PYTHONOPTIMIZE).  The literal is checked at every level; below
    level 2 it becomes the assignment of [__doc__], from level 2 on the
    compiler strips docstrings and nothing is stored. *)
Definition compile_docstring (lvl : nat) (l : literal) : M unit :=
  v ← str_const l;
  if Nat.ltb lvl 2 then store_name "__doc__" v else mret ().

(** ** The import system *)

(** The interpreter settings an import depends on. *)
Record config := Config {
  optimize : nat;                (* sys.flags.optimize *)
  dont_write_bytecode : bool     (* sys.dont_write_bytecode *)
}.

(** What the import system has worked out for a module it is about to
    load from a source file: the path of the source, the path of the
    byte-code cache for the optimisation level in force, the byte code
    the compiler produces for the source (a cache file with any other
    content is stale), and the namespace of the new module object with
    the attributes the import system sets on it ([__name__], [__file__],
    [__cached__], [__spec__], [__loader__] and so on), which the body is
    run in. *)
Record location := Location {
  origin : string;
  cached : string;
  bytecode : string;
  attributes : gmap string value
}.

(** Writing the byte-code cache, unless that is switched off. *)
Definition write_cache (cfg : config) (loc : location) (w : world) : world :=
  if dont_write_bytecode cfg then w
  else log (EvWrite (cached loc)) (set_files (insert (cached loc) (bytecode loc)) w).

(** Getting the code of the module: from the cache when it is up to
    date; otherwise the source is read and compiled, and the cache is
    written. *)
Definition fetch_code (cfg : config) (loc : location) (w : world) : world :=
  match files w !! cached loc with
  | Some b =>
      if String.eqb b (bytecode loc) then log (EvRead (cached loc)) w
      else write_cache cfg loc (log (EvRead (origin loc)) (log (EvRead (cached loc)) w))
  | None => write_cache cfg loc (log (EvRead (origin loc)) w)
  end.

(** Importing a top-level module from its source file.  A module that
    is in [sys.modules] already is not run again.  Otherwise the source
    must exist; the code is fetched, the body - [code], at the
    optimisation level in force - runs in the namespace the import
    system prepared, and the module is entered in [sys.modules], unless
    the body raises.  Not recorded: the directory searches of the path
    finder, and, for a dotted name, the import of the parent packages
    that comes first. *)
Definition import_module (cfg : config) (name : string) (loc : location)
    (code : nat → M unit) (w : world) : result unit * world :=
  match modules w !! name with
  | Some _ => (Ok (), w)
  | None =>
      match files w !! origin loc with
      | None => (Raise (ModuleNotFoundError name), w)
      | Some _ =>
          match code (optimize cfg) (Frame (attributes loc) (fetch_code cfg loc w)) with
          | (Ok _, fr) => (Ok (), set_modules (insert name (globals fr)) (outside fr))
          | (Raise e, fr) => (Raise e, outside fr)
          end
      end
  end.

(** ** Physical lines that carry no statement *)

Fixpoint skip_spaces (s : string) : string :=
  match s with
  | String c s' => if Ascii.eqb c " " then skip_spaces s' else s
  | EmptyString => s
  end.

(** A blank line, or a line whose first non-blank character is [#]. *)
Definition blank_or_comment (line : string) : bool :=
  match skip_spaces line with
  | EmptyString => true
  | String c _ => Ascii.eqb c "#"
  end.

(** The lines of a text, each ended by a newline. *)
Definition unlines (ls : list string) : string :=
  foldr (λ l acc, l +:+ String newline acc) EmptyString ls.

(** Lines joined by newlines, the last one left open. *)
Definition join_lines (ls : list string) : string :=
  match ls with
  | [] => EmptyString
  | l :: ls' => foldl (λ acc x, acc +:+ String newline x) l ls'
  end.

End Py.

(* ===================================================================== *)
(** * The module [demonstrations/spsa.py]                                 *)
(* ===================================================================== *)

Module Spsa.
Import Py.

(** Lines 1-102: the text between the opening [r] triple quote and the
    closing triple quote at the start of line 103. *)
Definition doc_lines : list string := [
  ".. _spsa:";
  "";
  "Optimization using SPSA";
  "=======================";
  "";
  "PennyLane allows computing quantum gradients using  parameter-shift rules.";
  "";
  "For quantum circuits that have multiple free parameters, using the";
  "parameter-shift rule to compute quantum gradients involves computing the";
  "partial derivatives of the quantum function w.r.t. each free parameter. These";
  "partial derivatives are then used to apply the product rule when computing the";
  "quantum gradient (`see parameter-shift rules";
  "<https://pennylane.ai/qml/glossary/parameter_shift.html>`_). For qubit";
  "operations that are generated by one of the Pauli matrices, each partial";
  "derivative computation will involve two quantum circuit evaluations with a";
  "positive and a negative shift in the parameter values.";
  "";
  "As in such cases there would be two circuit evaluation for each free parameter,";
  "the number of overall quantum circuit executions for computing a quantum";
  "gradient scales linearly with the number of free parameters: :math:`O(k)` with";
  ":math:`k` being the number of free parameters. This scaling can be very costly";
  "for optimization tasks where many free pramaeters are considered in the quantum";
  "circuit. For the overall optimization this scaling gives :math:`O(k*n)` quantum";
  "circuit evaluations with :math:`n` being the number of optimization steps taken.";
  "";
  "There are, however, certain optimization techniques that are gradient-free and";
  "hence offer othen approach analytically computing the gradients of quantum";
  "circuits.";
  "";
  "One of such techniques is called Simultaneous perturbation stochastic";
  "approximation (SPSA), an optimization method that involves approximating the";
  "gradient of the cost function at each iteration step. This technique involves";
  "only two quantum circuit executions per iteration step, regardless of the";
  "number of free parameters. Therefore the overall number of circuit executions";
  "would be :math:`O(n')` where :math:`n'` is the number of optimization steps taken when";
  "using SPSA. This technique was also found to be robust against noise, making it";
  "a great optimization method in the NISQ era.";
  "";
  "Let's have a look at the details of how exactly this technique works.";
  "";
  "Simultaneous perturbation stochastic approximation (SPSA)";
  "---------------------------------------------------------";
  "";
  "SPSA is a general method for minimizing differentiable multivariate functions";
  "mostly tailored towards those functions for which evaluating the gradient is";
  "not available.";
  "";
  "SPSA provides a stochastic method for approximating the gradient of a";
  "multivariate differentiable cost function without having to evaluate the";
  "gradient of the function. To approximate the gradient, the cost function is";
  "evaluated twice using perturbed parameter vectors: every component of the";
  "original parameter vector is simultaneously shifted with a randomly generated";
  "value. This is in contrast to finite-differences methods where for each";
  "evaluation only one component of the parameter vector is shifted.";
  "";
  "Similar to gradient-based approaches such as gradient descent, SPSA offers an";
  "iterative optimization algorithm. We consider a differentiable cost function";
  ":math:`L(\theta)` where :math:`\theta` is a :math:`p-dimensional` vector and where the";
  "optimization problem can be translated into  finding a :math:`\theta*` such that";
  ":math:`\frac{\partial L}{\partial u} = 0`.  It is assumed that measurements of";
  ":math:`L(\theta)` are available at various values of :math:`\theta`.";
  "";
  "This is exactly the problem that we'd consider when optimizing quantum";
  "functions!";
  "";
  ".. figure:: ../demonstrations/spsa/spsa_opt.png";
  "    :align: center";
  "    :width: 60%";
  "";
  "    ..";
  "";
  "    A schematic of the search paths used by gradient descent with";
  "    parameter-shift and SPSA in a low-noise setting.";
  "    Image source: [#spall_overview]_.";
  "";
  "Just like with gradient-based methods, we'd start with a :math:`\hat{\theta}_{0}`";
  "initial parameter vector. After :math:`k` iterations, the :math:`k+1.` parameter iterates";
  "can be obtained as";
  "";
  ".. math:: \hat{\theta}_{k+1} = \hat{\theta}_{k} - a_{k}\hat{g}_{k}(\hat{\theta}_{k})";
  "";
  "where :math:`\hat{g}_{k}` is the estimate of the gradient :math:`g(u) = \frac{";
  "\partial L}{\partial \theta}` at the iterate :math:`\hat{\theta}_{k}` based on";
  "prior measurements of the cost function and :math:`a_{k}` is a numeric";
  "coefficient.";
  "";
  "As previously mentioned, SPSA further takes into account the noisiness of the";
  "result obtained when measuring function :math:`L`. Therefore, let's consider the";
  "function :math:`y(\theta)=L(\theta) + noise`.";
  "";
  "Using :math:`y`, the estimated gradient at each iteration step is expressed as";
  "";
  ".. math:: \hat{g}_{ki} (\hat{\theta}_{k}) = \frac{y(\hat{\theta}_{k} +c_{k}\Delta_{k})";
  "    - y(\hat{\theta}_{k} -c_{k}\Delta_{k})}{2c_{k}\Delta_{ki}}";
  "";
  "where :math:`c_{k}` is a positive number and :math:`\Delta_{k} = (\Delta_{k_1},";
  "\Delta_{k_2}, ..., \Delta_{k_p})^{T}` is the perturbation vector.  The";
  "stochasticity of the technique comes from the fact that for each iteration step";
  ":math:`k` the components of the :math:`\Delta_{k}` perturbation vector are randomly";
  "generated using a zero-mean distribution. In most cases, the Bernoulli";
  "distribution is used.";
  ""
].

Definition dquote : string := String (ascii_of_nat 34) EmptyString.

(** Lines 104-113: what follows the literal. *)
Definition trailing_lines : list string := [
  "";
  "";
  "##############################################################################";
  "# References";
  "# ----------";
  "#";
  "# .. [#spall_overview]";
  "#";
  "#    1. James C. Spall, " +:+ dquote
    +:+ "An Overview of the Simultaneous Perturbation Method for Efficient Optimization."
    +:+ dquote;
  "#    `<https://www.jhuapl.edu/SPSA/PDF-SPSA/Spall_An_Overview.PDF>`__, 1998"
].

(** The literal that opens the file. *)
Definition doc_literal : literal := Literal RawPrefix (unlines doc_lines).

(** The module body: the docstring, and nothing after it. *)
Definition body : M unit := docstring doc_literal.

(** The same text written without the [r] prefix, for comparison. *)
Definition cooked_literal : literal := Literal NoPrefix (unlines doc_lines).

(** The substring of the docstring that typesets the cost function:
    [:math:], a backquote, [L(], a backslash, [theta)], a backquote. *)
Definition math_L_theta : string :=
  ":math:`L(" +:+ String backslash "theta)`".

(** The body as compiled at optimisation level [lvl]. *)
Definition compiled (lvl : nat) : M unit := compile_docstring lvl doc_literal.

(** The text of the whole file: the opening [r] and triple quote, the
    docstring, the closing triple quote, and lines 104-113, the last of
    which has no newline. *)
Definition source_text : string :=
  "r" +:+ dquote +:+ dquote +:+ dquote +:+ unlines doc_lines
      +:+ dquote +:+ dquote +:+ dquote +:+ String newline (join_lines trailing_lines).

(** One import, spelled out: the module is found as a top-level module
    in the directory [demonstrations], by CPython 3.12, with no
    byte-code cache yet.  The string given as byte code stands for the
    bytes the compiler writes, and of the attributes only those that
    hold strings are filled in. *)
Definition spsa_path : string := "demonstrations/spsa.py".

Definition spsa_cache : string := "demonstrations/__pycache__/spsa.cpython-312.pyc".

Definition spsa_location : location :=
  Location spsa_path spsa_cache "(byte code of spsa.py)"
    (<["__file__" := VStr spsa_path]>
      (<["__cached__" := VStr spsa_cache]> (new_module "spsa"))).

Definition checkout : world := World ∅ ∅ {[ spsa_path := source_text ]} [].

End Spsa.

(* ===================================================================== *)
(** * Facts about running and importing a module                          *)
(* ===================================================================== *)

Module PyFacts.
Import Py.

Lemma starts_with_spec (needle s : string) :
  starts_with needle s = true ↔ ∃ post, s = needle +:+ post.
Proof.
  revert s. induction needle as [|a needle IH]; intros s; simpl.
  - split; [intros _; by exists s | done].
  - destruct s as [|b s]; simpl.
    + split; [done | intros [post Hpost]; discriminate].
    + rewrite andb_true_iff, Ascii.eqb_eq, IH. split.
      * intros [-> [post ->]]. by exists post.
      * intros [post [= -> ->]]. split; [done | by exists post].
Qed.

Lemma contains_spec (needle s : string) :
  contains needle s = true ↔ ∃ pre post, s = pre +:+ needle +:+ post.
Proof.
  induction s as [|b s IH].
  - simpl. rewrite orb_false_r, starts_with_spec. split.
    + intros [post Hpost]. by exists EmptyString, post.
    + intros [pre [post Heq]]. destruct pre; [by exists post | discriminate].
  - cbn [contains]. rewrite orb_true_iff, starts_with_spec, IH. split.
    + intros [[post Hpost] | [pre [post ->]]].
      * by exists EmptyString, post.
      * by exists (String b pre), post.
    + intros [[|c pre] [post Heq]]; simpl in Heq.
      * left. by exists post.
      * right. injection Heq as -> ->. by exists pre, post.
Qed.

(** A raw literal always has a value: its own text. *)
Lemma literal_value_raw (text : string) :
  literal_value (Literal RawPrefix text) = Some text.
Proof. reflexivity. Qed.

(** Running a raw docstring stores the text under [__doc__] and does
    nothing else. *)
Lemma docstring_raw (text : string) (fr : frame) :
  docstring (Literal RawPrefix text) fr
  = (Ok (), Frame (<["__doc__" := VStr text]> (globals fr)) (outside fr)).
Proof. reflexivity. Qed.

Lemma load_docstring_raw (text name : string) (w : world) :
  load_module name (docstring (Literal RawPrefix text)) w
  = (Ok (), set_modules (insert name (<["__doc__" := VStr text]> (new_module name))) w).
Proof. reflexivity. Qed.

Lemma loaded_doc_raw (text name : string) (w : world) :
  loaded_doc name (docstring (Literal RawPrefix text)) w = Some (VStr text).
Proof.
  unfold loaded_doc. rewrite load_docstring_raw. cbn [snd set_modules modules].
  rewrite lookup_insert_eq. cbn. by rewrite lookup_insert_eq.
Qed.

(** A new module already has a [__doc__] entry, so that binding it adds
    no name. *)
Lemma dom_new_module_doc (name : string) (v : value) :
  dom (<["__doc__" := v]> (new_module name)) = dom (new_module name).
Proof. unfold new_module. rewrite !dom_insert_L. set_solver. Qed.

Lemma definitions_new_module_doc (name text : string) :
  definitions (<["__doc__" := VStr text]> (new_module name)) = ∅.
Proof.
  unfold definitions, new_module. apply map_empty_filter_2.
  repeat (apply map_Forall_insert_2; [cbn; congruence |]).
  apply map_Forall_empty.
Qed.

(** The comparison module does touch the outside, and its outcome
    depends on the environment. *)
Lemma env_reader_reads (name : string) :
  trace (load_module name env_reader (World ∅ ∅ ∅ [])).2 = [EvGetenv "HOME"]
  ∧ (load_module name env_reader (World ∅ ∅ ∅ [])).1 = Raise (KeyError "HOME")
  ∧ (load_module name env_reader (World ∅ {["HOME" := "/root"]} ∅ [])).1 = Ok ().
Proof. by vm_compute. Qed.

(** A raw docstring compiled at any level: below level 2 it is stored
    under [__doc__], from level 2 on nothing is stored; either way the
    run ends normally and the world is left alone. *)
Lemma compile_docstring_raw (lvl : nat) (text : string) (fr : frame) :
  compile_docstring lvl (Literal RawPrefix text) fr
  = (Ok (), Frame (if Nat.ltb lvl 2 then <["__doc__" := VStr text]> (globals fr)
                   else globals fr)
                  (outside fr)).
Proof.
  unfold compile_docstring. destruct fr, (Nat.ltb lvl 2); reflexivity.
Qed.

(** What an import leaves of the world it started in: the environment
    variables; and when the body leaves the world alone, every file but
    the byte-code cache and every module but the one imported. *)
Lemma fetch_code_frame (cfg : config) (loc : location) (w : world) :
  environ (fetch_code cfg loc w) = environ w
  ∧ modules (fetch_code cfg loc w) = modules w
  ∧ delete (cached loc) (files (fetch_code cfg loc w)) = delete (cached loc) (files w).
Proof.
  unfold fetch_code, write_cache.
  destruct (files w !! cached loc) as [b|]; [destruct (String.eqb b (bytecode loc))|];
    destruct (dont_write_bytecode cfg); cbn; by rewrite ?delete_insert_eq.
Qed.

Lemma write_file_writes (name path data : string) (w : world) :
  files (load_module name (write_file path data) w).2 !! path = Some data
  ∧ trace (load_module name (write_file path data) w).2 = (trace w ++ [EvWrite path])%list.
Proof. cbn. by rewrite lookup_insert_eq. Qed.

End PyFacts.

(* ===================================================================== *)
(** * Running and importing [demonstrations/spsa.py]                      *)
(* ===================================================================== *)

Module SpsaFacts.
Import Py PyFacts Spsa.

(** Lines 104-113 are blank lines and comments: no statement follows
    the docstring. *)
Lemma trailing_lines_carry_no_statement :
  forallb blank_or_comment trailing_lines = true.
Proof. by vm_compute. Qed.

Lemma body_run (fr : frame) :
  body fr = (Ok (), Frame (<["__doc__" := VStr (unlines doc_lines)]> (globals fr))
                          (outside fr)).
Proof. unfold body, doc_literal. apply docstring_raw. Qed.

Lemma body_load (name : string) (w : world) :
  load_module name body w
  = (Ok (), set_modules
              (insert name (<["__doc__" := VStr (unlines doc_lines)]> (new_module name))) w).
Proof. unfold body, doc_literal. apply load_docstring_raw. Qed.

Lemma body_loaded_doc (name : string) (w : world) :
  loaded_doc name body w = Some (VStr (unlines doc_lines)).
Proof. unfold body, doc_literal. apply loaded_doc_raw. Qed.

(** The docstring has 5102 characters, 42 of them backslashes. *)
Lemma doc_text_size :
  Z.of_nat (String.length (unlines doc_lines)) = 5102%Z
  ∧ count_char backslash (unlines doc_lines) = 42.
Proof. vm_compute. split; reflexivity. Qed.

(** It contains no double quote: the triple quote on line 103 is the
    first one after the opening, and closes the literal. *)
Lemma doc_text_has_no_quote :
  count_char (ascii_of_nat 34) (unlines doc_lines) = 0.
Proof. vm_compute. reflexivity. Qed.

(** Without the [r] prefix the same text would denote another string:
    [\t] and [\f] would be read as a tab and a form feed, and
    [L(\theta)] would be lost. *)
Lemma cooked_literal_differs :
  (s ← literal_value cooked_literal;
   Some (Z.of_nat (String.length s), count_char backslash s,
         count_char (ascii_of_nat 9) s, contains math_L_theta s))
  = Some (5083%Z, 23, 16, false).
Proof. vm_compute. reflexivity. Qed.

(** C1: loading the module succeeds and its whole effect is that the
    new module object has the text of the opening raw literal as its
    [__doc__]: in whatever frame the body runs, it stores that one name
    and touches nothing else; the loaded module has the names of a
    module just created and no others, none of them bound to a function
    or a class; and what follows the literal in the file is blank lines
    and comments only. *)
Theorem spsa_only_binds_doc (name : string) (w : world) :
  load_module name body w
  = (Ok (), set_modules
              (insert name (<["__doc__" := VStr (lit_text doc_literal)]> (new_module name))) w)
  ∧ (∀ fr, body fr = (Ok (), Frame (<["__doc__" := VStr (lit_text doc_literal)]> (globals fr))
                                   (outside fr)))
  ∧ dom (<["__doc__" := VStr (lit_text doc_literal)]> (new_module name))
    = dom (new_module name)
  ∧ definitions (<["__doc__" := VStr (lit_text doc_literal)]> (new_module name)) = ∅
  ∧ lit_prefix doc_literal = RawPrefix
  ∧ forallb blank_or_comment trailing_lines = true.
Proof.
  cbn [lit_text lit_prefix doc_literal]. split_and!.
  - apply body_load.
  - apply body_run.
  - apply dom_new_module_doc.
  - apply definitions_new_module_doc.
  - reflexivity.
  - apply trailing_lines_carry_no_statement.
Qed.

(** C5: loading the module never raises: in every world and under
    every module name the load ends normally, and so does the body in
    every frame. *)
Theorem spsa_never_raises :
  (∀ (name : string) (w : world), (load_module name body w).1 = Ok ())
  ∧ (∀ fr : frame, (body fr).1 = Ok ()).
Proof.
  split.
  - intros name w. by rewrite body_load.
  - intros fr. by rewrite body_run.
Qed.

(** C9: the docstring is a raw literal, so [__doc__] is the text
    between the quotes character for character, with each of its 42
    backslashes; in particular it contains [:math:`L(\theta)`], whose
    tenth character is a backslash. *)
Theorem spsa_doc_keeps_backslashes (name : string) (w : world) :
  lit_prefix doc_literal = RawPrefix
  ∧ loaded_doc name body w = Some (VStr (lit_text doc_literal))
  ∧ count_char backslash (lit_text doc_literal) = 42
  ∧ (∃ pre post, lit_text doc_literal = pre +:+ math_L_theta +:+ post)
  ∧ String.get 9 math_L_theta = Some (ascii_of_nat 92)
  ∧ math_L_theta = ":math:`L(\theta)`".
Proof.
  cbn [lit_text lit_prefix doc_literal]. split_and!.
  - reflexivity.
  - apply body_loaded_doc.
  - apply doc_text_size.
  - apply contains_spec. by vm_compute.
  - reflexivity.
  - reflexivity.
Qed.

(** The transcription accounts for every character of the file, which
    has 5425 of them. *)
Lemma source_text_size : Z.of_nat (String.length source_text) = 5425%Z.
Proof. vm_compute. reflexivity. Qed.

Lemma compiled_run (lvl : nat) (fr : frame) :
  compiled lvl fr
  = (Ok (), Frame (if Nat.ltb lvl 2
                   then <["__doc__" := VStr (unlines doc_lines)]> (globals fr)
                   else globals fr)
                  (outside fr)).
Proof. unfold compiled, doc_literal. apply compile_docstring_raw. Qed.

(** At the default level the compiled body is [body]. *)
Lemma compiled_default : compiled 0 = body.
Proof. reflexivity. Qed.

(** An import does file I/O and changes the file system: in a checkout
    that holds the source and no byte-code cache, a default import of
    the module reads the source and writes the cache. *)
Lemma import_does_file_io :
  trace (import_module (Config 0 false) "spsa" spsa_location compiled checkout).2
  = [EvRead spsa_path; EvWrite spsa_cache]
  ∧ trace (import_module (Config 0 false) "spsa" spsa_location compiled checkout).2
    ≠ trace checkout
  ∧ files (import_module (Config 0 false) "spsa" spsa_location compiled checkout).2
    ≠ files checkout.
Proof.
  split_and!.
  - vm_compute. reflexivity.
  - intros H. vm_compute in H. discriminate H.
  - intros H. apply (f_equal (λ fs : gmap string string, fs !! spsa_cache)) in H.
    vm_compute in H. discriminate H.
Qed.

(** C6 (as amended): running the module body reads no environment
    variable and does no file or network I/O: at every optimisation
    level and in every frame it ends normally and leaves the world -
    [sys.modules], the environment variables, the files and the trace of
    interactions - exactly as it was.  So an import of this module
    leaves the world as the import of an empty module from the same
    place does, but for the module object itself: what I/O there is, is
    the import system's. *)
Theorem spsa_body_frame :
  (∀ (lvl : nat) (fr : frame),
      (compiled lvl fr).1 = Ok () ∧ outside (compiled lvl fr).2 = outside fr)
  ∧ (∀ (cfg : config) (name : string) (loc : location) (w : world),
      trace (import_module cfg name loc compiled w).2
      = trace (import_module cfg name loc (λ _, mret ()) w).2
      ∧ environ (import_module cfg name loc compiled w).2
        = environ (import_module cfg name loc (λ _, mret ()) w).2
      ∧ files (import_module cfg name loc compiled w).2
        = files (import_module cfg name loc (λ _, mret ()) w).2
      ∧ delete name (modules (import_module cfg name loc compiled w).2)
        = delete name (modules (import_module cfg name loc (λ _, mret ()) w).2)).
Proof.
  split.
  - intros lvl fr. by rewrite compiled_run.
  - intros cfg name loc w. unfold import_module.
    destruct (modules w !! name); [done|].
    destruct (files w !! origin loc); [|done].
    rewrite compiled_run. unfold mret, M_ret.
    cbn [fst snd set_modules modules environ files trace outside globals].
    by rewrite !delete_insert_eq.
Qed.

(** The state of the module is not the same in any two environments:
    run as a script and imported by name, the module differs in
    [__name__]; and an import at optimisation level 2 leaves [__doc__]
    at [None], where a default import binds it to the docstring. *)
Lemma spsa_state_depends_on_environment :
  modules (load_module "__main__" (compiled 0) checkout).2 !! "__main__"
  ≠ modules (load_module "spsa" (compiled 0) checkout).2 !! "spsa"
  ∧ modules (import_module (Config 0 false) "spsa" spsa_location compiled checkout).2
      !! "spsa" ≫= (λ ns, ns !! "__doc__")
    = Some (VStr (lit_text doc_literal))
  ∧ modules (import_module (Config 2 false) "spsa" spsa_location compiled checkout).2
      !! "spsa" ≫= (λ ns, ns !! "__doc__")
    = Some VNone.
Proof.
  split_and!.
  - intros H.
    apply (f_equal (λ o : option (gmap string value), o ≫= (λ ns, ns !! "__name__"))) in H.
    vm_compute in H. discriminate H.
  - vm_compute. reflexivity.
  - vm_compute. reflexivity.
Qed.

(** C10 (as amended): running the module body is deterministic and
    does not depend on the world.  Wherever docstrings are kept
    (optimisation level 0 or 1), any two runs - in any two namespaces
    and worlds - bind [__doc__] to the same string, the text of the
    literal; at any one level, two runs in the same namespace end alike
    and leave the same namespace whatever the world; and a run changes
    no name but [__doc__], so that whatever else the module state holds
    is what the import system put there. *)
Theorem spsa_body_deterministic (l1 l2 : nat) (fr1 fr2 : frame) :
  (l1 < 2)%nat →
  (l2 < 2)%nat →
  globals (compiled l1 fr1).2 !! "__doc__" = Some (VStr (lit_text doc_literal))
  ∧ globals (compiled l2 fr2).2 !! "__doc__" = globals (compiled l1 fr1).2 !! "__doc__"
  ∧ (∀ (lvl : nat) (ns : gmap string value) (w1 w2 : world),
        (compiled lvl (Frame ns w1)).1 = (compiled lvl (Frame ns w2)).1
        ∧ globals (compiled lvl (Frame ns w1)).2 = globals (compiled lvl (Frame ns w2)).2)
  ∧ (∀ (lvl : nat) (fr : frame),
        delete "__doc__" (globals (compiled lvl fr).2) = delete "__doc__" (globals fr)).
Proof.
  intros H1 H2. apply Nat.ltb_lt in H1, H2.
  rewrite !compiled_run, H1, H2. cbn [snd globals lit_text doc_literal].
  rewrite !lookup_insert_eq. split_and!; [done | done | |].
  - intros lvl ns w1 w2. by rewrite !compiled_run.
  - intros lvl fr. rewrite compiled_run. cbn [snd globals].
    destruct (Nat.ltb lvl 2); [by rewrite delete_insert_eq | done].
Qed.

Lemma spsa_body_deterministic_witness :
  (0 < 2)%nat
  ∧ (1 < 2)%nat
  ∧ globals (compiled 1 (Frame (new_module "__main__") (World ∅ ∅ ∅ []))).2 !! "__doc__"
    = globals (compiled 0 (Frame (new_module "spsa") checkout)).2 !! "__doc__".
Proof.
  assert (0 < 2)%nat as H1 by lia.
  assert (1 < 2)%nat as H2 by lia.
  split; [exact H1|]. split; [exact H2|].
  exact (proj1 (proj2 (spsa_body_deterministic 0 1
                         (Frame (new_module "spsa") checkout)
                         (Frame (new_module "__main__") (World ∅ ∅ ∅ [])) H1 H2))).
Defined.

(** X1: executing the module once more changes nothing: running the body
    a second time in the frame it left, or loading the module again in
    the world the first load left, gives the state of the first run. *)
Theorem spsa_reload_idempotent :
  (∀ fr : frame, (body ≫= λ _, body) fr = body fr)
  ∧ (∀ (name : string) (w : world),
       load_module name body (load_module name body w).2 = load_module name body w).
Proof.
  split.
  - intros fr. unfold mbind, M_bind. rewrite !body_run. cbn [globals outside].
    by rewrite insert_insert_eq.
  - intros name w. rewrite !body_load. cbn [snd]. unfold set_modules. cbn [modules environ files trace].
    by rewrite insert_insert_eq.
Qed.

End SpsaFacts.
